(** * SecLab Bot client: a shallow embedding of [sec-lab-bot.py]

    The client is a single blocking loop around three external
    capabilities: the HTTP library ([requests]), the terminal ([curses])
    and the banner renderer ([pyfiglet]).  Each iteration of the loop is
    modelled as a computation in a small monad that threads the log file,
    collects the calls made on the outside world, and can raise. What the
    outside world answers during one iteration is an input, [env]. *)

From Stdlib Require Import Ascii String QArith.
From Stdlib Require Strings.Byte.
From stdpp Require Import base strings list gmap pretty.

Local Open Scope string_scope.
Local Open Scope Z_scope.
Local Open Scope list_scope.

(** ** Values *)

(** The body of an HTTP response once [resp.json()] has decoded it. A
    decoded object is a Python dict, held here as its items. *)
#[warnings="-register-all"]
Inductive json : Type :=
| JNull
| JBool (b : bool)
| JNum (n : Z)
| JStr (s : string)
| JArr (items : list json)
| JObj (items : list (string * json)).

(** Exceptions that escape the functions below. *)
Inductive exn : Type :=
| AttributeError (type_name attr : string)
| JSONDecodeError
| OSError
| CursesError (msg : string)
| UnboundLocalError (name : string).

Inductive result (A : Type) : Type :=
| Ok (a : A)
| Raise (e : exn).
Arguments Ok {A} a.
Arguments Raise {A} e.

(** What [requests.get] / [requests.post] does: it raises, or it returns
    a response with a status code and a body; [body = None] is a body
    that is not JSON, on which [resp.json()] raises. *)
Inductive http_outcome : Type :=
| TransportError
| Response (status_code : Z) (body : option json).

(** A banner is a string made of rendered glyphs and of art read from a
    file; it is kept as the pieces it was built from. *)
Inductive piece : Type :=
| Glyphs (text : string)
| FileArt (path : string).

Definition banner : Type := list piece.

(** Calls made on the outside world, in the order they are made. *)
Inductive event : Type :=
| HttpGet (url : string)
| HttpPost (url : string) (auth : option (option string * option string))
    (payload : list (string * string))
| Clear
| CursSet (visibility : Z)
| NoDelay (flag : Z)
| Timeout (delay : Z)
| AddStr (msg : string)
| AddStrBold (msg : banner)
| AddStrAt (y x : Z) (msg : string)
| Refresh
| GetStr (y x : Z) (n : nat)
| Echo
| NoEcho
| Flash
| Beep
| Print (msg : string).


(** What the outside world does during one iteration of the loop. *)
Record env : Type := {
  api_get : http_outcome;        (* requests.get(API_URL) *)
  api_post : http_outcome;       (* requests.post(API_URL, ...) *)
  webhook_post : http_outcome;   (* requests.post(WEBHOOK_URL, ...) *)
  log_openable : bool;           (* open(LOG_FILE, 'w+') does not raise *)
  clock : Q;                     (* time.time(), in seconds *)
  typed_status : list Byte.byte; (* line typed at the "Status: " prompt *)
  typed_color : list Byte.byte;  (* line typed at the "Color: " prompt *)
  addstr_error : option string   (* curses.error raised by win.addstr *)
}.

(** ** The monad

    A computation reads the [env] of the iteration, transforms the lines
    of the log file, yields a value or raises, and emits events. *)
Definition M (A : Type) : Type :=
  env -> list string -> result A * list string * list event.

Definition ret {A} (a : A) : M A := fun _ l => (Ok a, l, []).

Definition bind {A B} (m : M A) (k : A -> M B) : M B :=
  fun e l =>
    match m e l with
    | (Ok a, l1, w1) =>
        match k a e l1 with
        | (r, l2, w2) => (r, l2, w1 ++ w2)
        end
    | (Raise x, l1, w1) => (Raise x, l1, w1)
    end.

Definition raise {A} (x : exn) : M A := fun _ l => (Raise x, l, []).

(** [try: m except Exception as exc: h exc] *)
Definition try_except {A} (m : M A) (h : exn -> M A) : M A :=
  fun e l =>
    match m e l with
    | (Ok a, l1, w1) => (Ok a, l1, w1)
    | (Raise x, l1, w1) =>
        match h x e l1 with
        | (r, l2, w2) => (r, l2, w1 ++ w2)
        end
    end.

Definition emit (ev : event) : M unit := fun _ l => (Ok tt, l, [ev]).

Definition asks {A} (f : env -> A) : M A := fun e l => (Ok (f e), l, []).

Declare Scope py_scope.
Delimit Scope py_scope with py.
Notation "x <- c ;; k" := (bind c (fun x => k))
  (at level 100, c at next level, right associativity) : py_scope.
Notation "c ;;; k" := (bind c (fun _ => k))
  (at level 100, right associativity) : py_scope.
Local Open Scope py_scope.

Definition value {A} (r : result A * list string * list event) : result A :=
  r.1.1.
Definition log_after {A} (r : result A * list string * list event) : list string :=
  r.1.2.
Definition calls {A} (r : result A * list string * list event) : list event :=
  r.2.

(** ** Strings

    A Python [str] is held as the bytes of its UTF-8 encoding. [strip] and
    [upper] act on the ASCII range; other code points are left as they
    are. *)
Definition ord (c : ascii) : Z := Z.of_N (N_of_ascii c).

Definition is_space (c : ascii) : bool :=
  let n := N_of_ascii c in
  (((9 <=? n) && (n <=? 13)) || ((28 <=? n) && (n <=? 32)))%N.

Fixpoint lstrip_chars (cs : list ascii) : list ascii :=
  match cs with
  | c :: rest => if is_space c then lstrip_chars rest else cs
  | [] => []
  end.

Definition strip (s : string) : string :=
  string_of_list_ascii
    (rev (lstrip_chars (rev (lstrip_chars (list_ascii_of_string s))))).

Definition upper_char (c : ascii) : ascii :=
  let n := N_of_ascii c in
  if ((97 <=? n) && (n <=? 122))%N then ascii_of_N (n - 32) else c.

Fixpoint upper (s : string) : string :=
  match s with
  | EmptyString => EmptyString
  | String c rest => String (upper_char c) (upper rest)
  end.

Definition newline : string := String (ascii_of_N 10) EmptyString.

(** [bytes.decode('utf-8')]: the strict decoder accepts exactly the
    well-formed sequences (no overlong forms, no surrogates, nothing
    above U+10FFFF). *)
Definition continuation (b : N) : bool := ((128 <=? b) && (b <=? 191))%N.
Definition between (lo hi b : N) : bool := ((lo <=? b) && (b <=? hi))%N.

Fixpoint utf8_well_formed (bs : list N) : bool :=
  match bs with
  | [] => true
  | b0 :: r0 =>
      if (b0 <=? 127)%N then utf8_well_formed r0
      else if between 194 223 b0 then
        match r0 with
        | b1 :: r1 => continuation b1 && utf8_well_formed r1
        | _ => false
        end
      else if between 224 239 b0 then
        match r0 with
        | b1 :: b2 :: r2 =>
            (if (b0 =? 224)%N then between 160 191 b1
             else if (b0 =? 237)%N then between 128 159 b1
             else continuation b1)
            && continuation b2 && utf8_well_formed r2
        | _ => false
        end
      else if between 240 244 b0 then
        match r0 with
        | b1 :: b2 :: b3 :: r3 =>
            (if (b0 =? 240)%N then between 144 191 b1
             else if (b0 =? 244)%N then between 128 143 b1
             else continuation b1)
            && continuation b2 && continuation b3 && utf8_well_formed r3
        | _ => false
        end
      else false
  end.

Definition decode (bs : list Byte.byte) : option string :=
  if utf8_well_formed (map Byte.to_N bs)
  then Some (string_of_list_byte bs)
  else None.

(** ** Module-level constants *)
Definition LOG_FILE : string := "files/client.log".
Definition MAX_LOG_ENTRIES : Z := 1024.
Definition API_URL : string := "https://cpsecurity.club/api/v1/status".

(** The three values read from the environment at import time. *)
Record config : Type := {
  API_USER : option string;
  API_PASS : option string;
  WEBHOOK_URL : option string
}.

Definition WEBHOOK_MESSAGES : gmap string string :=
  list_to_map
    [("open", "Lab is OPEN :)");
     ("closed", "Lab is CLOSED :(");
     ("fire", "Lab is ON FIRE 🔥");
     ("coffee", "Out for coffee ☕")].

Definition renderText (text : string) : banner := [Glyphs text].

Definition BANNER_OPEN : banner := renderText (strip "Lab is OPEN :)").
Definition BANNER_CLOSE : banner := renderText (strip "Lab is CLOSED :(").
Definition fire : banner := [FileArt "fire.txt"].
Definition BANNER_FIRE : banner :=
  renderText (strip ("Lab is" +:+ newline)) ++ fire.
Definition coffee : banner := [FileArt "coffee.txt"].
Definition BANNER_COFFEE : banner :=
  renderText (strip ("Out for" +:+ newline)) ++ coffee.

Definition STATE_CLOSED : Z := 0.
Definition STATE_OPEN : Z := 1.

Definition PRE_DEF_COLORS : gmap string string :=
  list_to_map
    [("open", "brightgreen");
     ("closed", "red");
     ("fire", "orange");
     ("coffee", "8f7369")].

(** ** Truth values and comparisons of Python *)

(** [v == s] for a string literal [s]. *)
Definition eq_str (v : json) (s : string) : bool :=
  match v with
  | JStr t => bool_decide (t = s)
  | _ => false
  end.

Definition truthy_str (s : string) : bool := negb (bool_decide (s = "")).

(** [if banner:]. A rendering of a non-empty text is a non-empty string;
    the contents of an art file are not known and do not count. *)
Definition truthy_piece (p : piece) : bool :=
  match p with
  | Glyphs text => truthy_str text
  | FileArt _ => false
  end.

Definition truthy_banner (b : banner) : bool := existsb truthy_piece b.

Definition Qltb (a b : Q) : bool := negb (Qle_bool b a).

Definition type_name (v : json) : string :=
  match v with
  | JNull => "NoneType"
  | JBool _ => "bool"
  | JNum _ => "int"
  | JStr _ => "str"
  | JArr _ => "list"
  | JObj _ => "dict"
  end.

Fixpoint assoc (key : string) (items : list (string * json)) : option json :=
  match items with
  | [] => None
  | (k, v) :: rest => if bool_decide (k = key) then Some v else assoc key rest
  end.

(** [v.get(key, dflt)] *)
Definition dict_get (v : json) (key : string) (dflt : json) : M json :=
  match v with
  | JObj items => ret (default dflt (assoc key items))
  | _ => raise (AttributeError (type_name v) "get")
  end.

(** [v.upper()] *)
Definition str_upper (v : json) : M string :=
  match v with
  | JStr s => ret (upper s)
  | _ => raise (AttributeError (type_name v) "upper")
  end.

Definition str_exn (x : exn) : string :=
  match x with
  | AttributeError t a =>
      "'" +:+ t +:+ "' object has no attribute '" +:+ a +:+ "'"
  | JSONDecodeError => "Expecting value"
  | OSError => "cannot open file"
  | CursesError msg => msg
  | UnboundLocalError name =>
      "local variable '" +:+ name +:+ "' referenced before assignment"
  end.

(** ** The outside world *)

(** [logging.info], [logging.warning], [logging.error]: the handler holds
    the log file open in append mode and writes one line per call. The
    time stamp that starts the line is left out. *)
Definition logging (msg : string) : M unit :=
  fun _ l => (Ok tt, l ++ [msg], []).

Definition requests_get (url : string) : M http_outcome :=
  emit (HttpGet url);;;
  asks api_get.

Definition requests_post (url : string)
    (auth : option (option string * option string))
    (payload : list (string * string))
    (endpoint : env -> http_outcome) : M http_outcome :=
  emit (HttpPost url auth payload);;;
  asks endpoint.

(** [resp.json()] *)
Definition resp_json (body : option json) : M json :=
  match body with
  | Some j => ret j
  | None => raise JSONDecodeError
  end.

Definition time_time : M Q := asks clock.

(** [open(LOG_FILE, 'w+')]: mode [w+] creates the file or empties it. *)
Definition open_w_plus : M unit :=
  fun e l => if log_openable e then (Ok tt, [], []) else (Raise OSError, l, []).

(** [log_file.readlines()] on the handle just opened. *)
Definition readlines : M (list string) := fun _ l => (Ok l, l, []).

(** [log_file.write(text)] at the end of the file. *)
Definition file_write (text : string) : M unit :=
  fun _ l => (Ok tt, if bool_decide (text = "") then l else l ++ [text], []).

(** [win.getstr(y, x, n)] reads at most [n] bytes of the line typed. *)
Definition win_getstr (y x : Z) (n : nat)
    (typed : env -> list Byte.byte) : M (list Byte.byte) :=
  emit (GetStr y x n);;;
  line <- asks typed;;
  ret (take n line).

(** [win.addstr(msg, curses.A_BOLD)] *)
Definition win_addstr_bold (msg : banner) : M unit :=
  emit (AddStrBold msg);;;
  err <- asks addstr_error;;
  match err with
  | Some m => raise (CursesError m)
  | None => ret tt
  end.

(** ** The program *)

Definition api_request (cfg : config) (reqtype : string)
    (statcolor : option string) : M bool :=
  logging ("client sent " +:+ reqtype +:+ " request");;;
  let statcolor :=
    match statcolor with
    | None =>
        match PRE_DEF_COLORS !! reqtype with
        | Some c => c
        | None => "purple"
        end
    | Some c => c
    end in
  let data := [("StatusName", reqtype); ("StatusColor", statcolor)] in
  resp <- requests_post API_URL (Some (API_USER cfg, API_PASS cfg)) data api_post;;
  match resp with
  | TransportError => ret false
  | Response status_code _ =>
      if negb (status_code =? 200) then ret false
      else
        match WEBHOOK_URL cfg with
        | Some url =>
            if truthy_str url then
              let text :=
                default ("Lab is " +:+ reqtype) (WEBHOOK_MESSAGES !! reqtype) in
              webhook_resp <-
                requests_post url None [("content", text)] webhook_post;;
              match webhook_resp with
              | TransportError => ret false
              | Response code _ =>
                  if negb (bool_decide (code ∈ [200; 204])) then ret false
                  else ret true
              end
            else ret true
        | None => ret true
        end
  end.

Definition ncurses_write (msg : banner) : M unit :=
  try_except
    (emit Clear;;; win_addstr_bold msg)
    (fun exc => logging ("NCurses exception: " +:+ str_exn exc)).

Definition get_status : M json :=
  logging "client getting status";;;
  resp <- requests_get API_URL;;
  match resp with
  | TransportError => ret (JStr "error")
  | Response status_code body =>
      if negb (status_code =? 200) then ret (JStr "error")
      else
        j <- resp_json body;;
        data <- dict_get j "data" (JStr "error");;
        dict_get data "status" (JStr "error")
  end.

Definition get_state : M Z :=
  status <- get_status;;
  if eq_str status "open" then ret 1 else ret 0.

Definition truncate_log : M bool :=
  try_except
    (open_w_plus;;;
     ls <- readlines;;
     (if Z.of_nat (length ls) >? MAX_LOG_ENTRIES then file_write "" else ret tt);;;
     ret true)
    (fun _ => emit (Print "Error truncating log file");;; ret false).

(** The tail of [set_status], reached when a branch did not return. *)
Definition report (success : bool) (reqtype : string) : M (option banner) :=
  (if success then logging (reqtype +:+ " request success")
   else emit Flash;;; emit Beep;;; logging (reqtype +:+ " request failed"));;;
  gotchar <- time_time;;
  ret None.

Definition set_status (cfg : config) (ch : Z) (success : bool) (gotchar : Q)
    : M (option banner) :=
  state <- get_state;;
  logging (pretty state);;;
  ok <- truncate_log;;
  if negb ok then ret None else
  now <- time_time;;
  if Qltb (now - gotchar) (1 # 10) then ret None else
  if (ch =? ord "f") && (state =? STATE_OPEN) then
    let reqtype := "fire" in
    success <- api_request cfg reqtype None;;
    if success then ret (Some BANNER_FIRE) else report success reqtype
  else if (ch =? ord "c") && (state =? STATE_OPEN) then
    let reqtype := "coffee" in
    success <- api_request cfg reqtype None;;
    if success then ret (Some BANNER_COFFEE) else report success reqtype
  else if (ch =? ord "|") && (state =? STATE_OPEN) then
    emit Echo;;;
    emit (AddStrAt 0 0 "Status: ");;;
    emit Refresh;;;
    reqtype <- win_getstr 0 8 6 typed_status;;
    emit (AddStrAt 1 0 "Color: ");;;
    emit Refresh;;;
    statcolor <- win_getstr 1 7 6 typed_color;;
    emit NoEcho;;;
    match decode statcolor with
    | None => ret None
    | Some statcolor =>
        match decode reqtype with
        | None => ret None
        | Some reqtype =>
            if negb (truthy_str reqtype) || negb (truthy_str statcolor)
            then ret None
            else
              success <- api_request cfg reqtype (Some statcolor);;
              if success
              then ret (Some (renderText (strip ("Lab is " +:+ upper reqtype))))
              else report success reqtype
        end
    end
  else if state =? STATE_CLOSED then
    let reqtype := "open" in
    success <- api_request cfg reqtype None;;
    if success then ret (Some BANNER_OPEN) else report success reqtype
  else if state =? STATE_OPEN then
    let reqtype := "closed" in
    success <- api_request cfg reqtype None;;
    if success then ret (Some BANNER_CLOSE) else report success reqtype
  else
    (* no branch bound [reqtype] *)
    (if success then ret tt else emit Flash;;; emit Beep);;;
    raise (UnboundLocalError "reqtype").

Definition get_remote_status : M banner :=
  status <- get_status;;
  if eq_str status "open" then ret BANNER_OPEN
  else if eq_str status "closed" then ret BANNER_CLOSE
  else if eq_str status "coffee" then ret BANNER_COFFEE
  else if eq_str status "fire" then ret BANNER_FIRE
  else
    u <- str_upper status;;
    ret (renderText (strip ("Lab is " +:+ u))).

(** One turn of the [while True] loop of [main], for the value [ch] that
    [win.getch()] returned ([-1] when the timeout elapsed). *)
Definition iteration (cfg : config) (ch : Z) (success : bool) (gotchar : Q)
    : M unit :=
  banner <-
    (if ch =? -1 then b <- get_remote_status;; ret (Some b)
     else set_status cfg ch success gotchar);;
  match banner with
  | Some b => if truthy_banner b then ncurses_write b else ret tt
  | None => ret tt
  end.

(** The loop over the keys read and the world at each turn. The loop
    never rebinds [success] and [gotchar]. An exception other than
    [KeyboardInterrupt] leaves the loop. *)
Fixpoint main_loop (cfg : config) (inputs : list (Z * env)) (success : bool)
    (gotchar : Q) (l : list string)
    : result unit * list string * list event :=
  match inputs with
  | [] => (Ok tt, l, [])
  | (ch, e) :: rest =>
      match iteration cfg ch success gotchar e l with
      | (Ok _, l1, w1) =>
          match main_loop cfg rest success gotchar l1 with
          | (r, l2, w2) => (r, l2, w1 ++ w2)
          end
      | (Raise x, l1, w1) => (Raise x, l1, w1)
      end
  end.

Definition main (cfg : config) (inputs : list (Z * env)) (l : list string)
    : result unit * list string * list event :=
  let l0 := l ++ ["client init"] in
  let w0 := [Clear; CursSet 0; NoDelay 0;
             AddStr "Use any key to toggle, or control-c to quit";
             Refresh; Timeout 120000] in
  let success := true in
  let gotchar := 0%Q in
  match main_loop cfg inputs success gotchar l0 with
  | (r, l1, w1) => (r, l1, w0 ++ w1)
  end.

(** ** Observations on the calls made *)

(** The requests that change the status: [(label, color)] of each POST
    to the status API. *)
Fixpoint status_posts (w : list event) : list (string * string) :=
  match w with
  | HttpPost url (Some _) [(_, label); (_, color)] :: rest =>
      (label, color) :: status_posts rest
  | _ :: rest => status_posts rest
  | [] => []
  end.

(** Every POST, to the status API or to the webhook. *)
Definition is_post (ev : event) : bool :=
  match ev with
  | HttpPost _ _ _ => true
  | _ => false
  end.

Definition posts (w : list event) : list event := List.filter is_post w.

(** The banners written on the terminal. *)
Fixpoint drawn (w : list event) : list banner :=
  match w with
  | AddStrBold b :: rest => b :: drawn rest
  | _ :: rest => drawn rest
  | [] => []
  end.

(** The calls made on the terminal. *)
Definition is_http (ev : event) : bool :=
  match ev with
  | HttpGet _ | HttpPost _ _ _ => true
  | _ => false
  end.

Definition terminal (w : list event) : list event :=
  List.filter (fun ev => negb (is_http ev)) w.

Definition status_body (label : string) : option json :=
  Some (JObj [("data", JObj [("status", JStr label)])]).

(** The success flag of a submission, in the words of the interface: the
    status POST answered 200 and, when a webhook is configured, the
    webhook POST answered 200 or 204. *)
Definition accepted (cfg : config) (e : env) : bool :=
  match api_post e with
  | Response 200 _ =>
      match WEBHOOK_URL cfg with
      | Some url =>
          if truthy_str url then
            match webhook_post e with
            | Response 200 _ | Response 204 _ => true
            | _ => false
            end
          else true
      | None => true
      end
  | _ => false
  end.

(** The color that goes with a label when none is given. *)
Definition table_color (reqtype : string) : string :=
  default "purple" (PRE_DEF_COLORS !! reqtype).

(** ** Sample worlds *)
Definition cfg0 : config :=
  {| API_USER := Some "lab"; API_PASS := Some "secret"; WEBHOOK_URL := None |}.

Definition env0 : env :=
  {| api_get := Response 200 (status_body "closed");
     api_post := Response 200 None;
     webhook_post := Response 204 None;
     log_openable := true;
     clock := 1700000000 # 1;
     typed_status := [];
     typed_color := [];
     addstr_error := None |}.

(** What the freeform entry sends to the terminal before it submits. *)
Definition prompt : list event :=
  [Echo; AddStrAt 0 0 "Status: "; Refresh; GetStr 0 8 6;
   AddStrAt 1 0 "Color: "; Refresh; GetStr 1 7 6; NoEcho].

Definition world (get post : http_outcome) (now : Q)
    (status color : list Byte.byte) : env :=
  {| api_get := get;
     api_post := post;
     webhook_post := Response 204 None;
     log_openable := true;
     clock := now;
     typed_status := status;
     typed_color := color;
     addstr_error := None |}.

Definition env_unreachable : env :=
  world TransportError (Response 200 None) (1700000000 # 1) [] [].

Definition env_no_data : env :=
  world (Response 200 (Some (JObj []))) (Response 200 None)
    (1700000000 # 1) [] [].

Definition env_rejected : env :=
  world (Response 200 (status_body "open")) (Response 500 None)
    (1700000000 # 1) [] [].

Definition env_bad_label : env :=
  world (Response 200 (status_body "open")) (Response 200 None)
    (1700000000 # 1) [Byte.xff] [Byte.x72; Byte.x65; Byte.x64].

(** Two presses of the key [a], 50 ms apart; the lab is closed at the
    first and open at the second. *)
Definition two_presses : list (Z * env) :=
  [(ord "a", world (Response 200 (status_body "closed")) (Response 200 None)
               (1700000000 # 1) [] []);
   (ord "a", world (Response 200 (status_body "open")) (Response 200 None)
               ((1700000000 # 1) + (1 # 20))%Q [] [])].

(** Text spelled by the glyphs of a banner. *)
Definition shows_text (needle : string) (b : banner) : bool :=
  existsb
    (fun p =>
       match p with
       | Glyphs text => bool_decide (is_Some (String.index 0 needle text))
       | FileArt _ => false
       end) b.

(** The chat notifications: [(url, content)] of each POST made without
    credentials. *)
Fixpoint webhook_posts (w : list event) : list (string * string) :=
  match w with
  | HttpPost url None [(_, content)] :: rest =>
      (url, content) :: webhook_posts rest
  | _ :: rest => webhook_posts rest
  | [] => []
  end.

(** The status GETs. *)
Definition is_get (ev : event) : bool :=
  match ev with
  | HttpGet _ => true
  | _ => false
  end.

Definition gets (w : list event) : list event := List.filter is_get w.

(** ** Start of the program *)





(** ** Proof support *)

Ltac unfold_py :=
  unfold value, log_after, calls, bind, ret, raise, emit, asks, try_except,
    logging, requests_get, requests_post, resp_json, time_time in *.

Section Api_request.
Variable cfg : config.

Lemma api_request_value reqtype statcolor e l :
  value (api_request cfg reqtype statcolor e l) = Ok (accepted cfg e).
Proof.
  unfold api_request, accepted. unfold_py. simpl.
  destruct (api_post e) as [|code body]; [done|].
  destruct (Z.eqb_spec code 200) as [->|Hne]; simpl.
  - destruct (WEBHOOK_URL cfg) as [url|]; [|done].
    destruct (truthy_str url); [|done]. simpl.
    destruct (webhook_post e) as [|c b]; [done|].
    case_bool_decide as Hc; simpl.
    + apply list_elem_of_In in Hc. simpl in Hc.
      destruct Hc as [<-|[<-|[]]]; done.
    + destruct c as [|p|p]; try done.
      repeat (destruct p as [p|p|]; try done); exfalso; apply Hc; set_solver.
  - destruct code as [|p|p]; try done.
    repeat (destruct p as [p|p|]; try done).
Qed.

Lemma api_request_status_posts reqtype statcolor e l :
  status_posts (calls (api_request cfg reqtype statcolor e l)) =
    [(reqtype, default (table_color reqtype) statcolor)].
Proof.
  unfold api_request, table_color. unfold_py. simpl.
  destruct (api_post e) as [|code body]; [done|].
  destruct (code =? 200); simpl; [|done].
  destruct (WEBHOOK_URL cfg) as [url|]; [|done].
  destruct (truthy_str url); [|done]. simpl.
  destruct (webhook_post e) as [|c b]; [done|].
  by case_bool_decide.
Qed.

End Api_request.

Lemma PRE_DEF_COLORS_other (reqtype : string) :
  reqtype ≠ "open" → reqtype ≠ "closed" → reqtype ≠ "fire" →
  reqtype ≠ "coffee" → PRE_DEF_COLORS !! reqtype = None.
Proof.
  intros Ho Hc Hf Hk. unfold PRE_DEF_COLORS. simpl.
  rewrite !lookup_insert_ne by done. apply lookup_empty.
Qed.

(** ** Color of a submission *)

(** C4: without an explicit color, [api_request] sends the color of the
    static table for the labels open, closed, fire and coffee, and
    purple for every other label; an explicit color is sent unchanged. *)
Theorem api_request_color (cfg : config) (e : env) (l : list string) :
  status_posts (calls (api_request cfg "open" None e l))
    = [("open", "brightgreen")] ∧
  status_posts (calls (api_request cfg "closed" None e l))
    = [("closed", "red")] ∧
  status_posts (calls (api_request cfg "fire" None e l))
    = [("fire", "orange")] ∧
  status_posts (calls (api_request cfg "coffee" None e l))
    = [("coffee", "8f7369")] ∧
  (∀ reqtype : string,
     reqtype ∉ ["open"; "closed"; "fire"; "coffee"] →
     status_posts (calls (api_request cfg reqtype None e l))
       = [(reqtype, "purple")]) ∧
  (∀ reqtype statcolor : string,
     status_posts (calls (api_request cfg reqtype (Some statcolor) e l))
       = [(reqtype, statcolor)]).
Proof.
  split_and!; try (rewrite api_request_status_posts; reflexivity).
  - intros reqtype Hother. rewrite api_request_status_posts.
    unfold table_color. rewrite PRE_DEF_COLORS_other; [done|..];
      intros ->; apply Hother; set_solver.
  - intros reqtype statcolor. by rewrite api_request_status_posts.
Qed.

Lemma api_request_color_witness :
  status_posts (calls (api_request cfg0 "party" None env0 [])) = [("party", "purple")].
Proof.
  destruct (api_request_color cfg0 env0 []) as (_ & _ & _ & _ & Hother & _).
  apply Hother. apply (bool_decide_unpack _). vm_compute. exact I.
Defined.

(** ** Success flag of a submission *)

(** C5: [api_request] always returns a boolean; it is false when the
    status POST raises or answers anything but 200, and it is true
    exactly when the status POST answered 200 and, if a webhook URL is
    configured, the webhook POST answered 200 or 204. *)
Theorem api_request_returns (cfg : config) (reqtype : string)
    (statcolor : option string) (e : env) (l : list string) :
  ∃ b : bool,
    value (api_request cfg reqtype statcolor e l) = Ok b ∧
    (api_post e = TransportError → b = false) ∧
    (∀ code body, api_post e = Response code body → code ≠ 200 → b = false) ∧
    (b = true ↔
       (∃ body, api_post e = Response 200 body) ∧
       (∀ url, WEBHOOK_URL cfg = Some url → url ≠ "" →
          ∃ code body, webhook_post e = Response code body ∧
                       (code = 200 ∨ code = 204))).
Proof.
  exists (accepted cfg e). split; [apply api_request_value|].
  unfold accepted.
  destruct (api_post e) as [|code body] eqn:Hpost.
  { repeat split; try done. intros [[? ?] _]. done. }
  destruct (decide (code = 200)) as [->|Hne].
  - split; [done|]. split; [by intros ?? [= <- _] ?|].
    destruct (WEBHOOK_URL cfg) as [url|] eqn:Hurl.
    + unfold truthy_str. case_bool_decide as Hempty; simpl.
      * split; [|done]. intros _. split; [by eexists|].
        intros ? [= <-] ?. done.
      * destruct (webhook_post e) as [|c b] eqn:Hhook.
        { split; [done|]. intros [_ H]. destruct (H url) as (?&?&?&?); done. }
        destruct (decide (c = 200)) as [->|H200].
        { split; [|done]. intros _. split; [by eexists|]. intros. eauto. }
        destruct (decide (c = 204)) as [->|H204].
        { split; [|done]. intros _. split; [by eexists|]. intros. eauto. }
        assert (match c with 200 | 204 => true | _ => false end = false) as ->.
        { destruct c as [|p|p]; try done.
          repeat (destruct p as [p|p|]; try done). }
        split; [done|]. intros [_ H].
        destruct (H url) as (c'&?&[= <- _]&[?|?]); done.
    + split; [|done]. intros _. split; [by eexists|]. done.
  - assert (match code with
            | 200 => match WEBHOOK_URL cfg with
                     | Some url => if truthy_str url then
                         match webhook_post e with
                         | Response 200 _ | Response 204 _ => true
                         | _ => false end else true
                     | None => true end
            | _ => false end = false) as ->.
    { destruct code as [|p|p]; try done.
      repeat (destruct p as [p|p|]; try done). }
    repeat split; try done. intros [[? [= ? _]] _]. done.
Qed.

(** ** Sequencing lemmas *)

Lemma status_posts_app (w1 w2 : list event) :
  status_posts (w1 ++ w2) = status_posts w1 ++ status_posts w2.
Proof.
  induction w1 as [|ev w1 IH]; [done|].
  destruct ev as [| url [a|] payload | | | | | | | | | | | | | |];
    simpl; try done.
  destruct payload as [|[k1 v1] [|[k2 v2] [|p3 rest]]]; simpl; try done.
  by rewrite IH.
Qed.

Lemma drawn_app (w1 w2 : list event) :
  drawn (w1 ++ w2) = drawn w1 ++ drawn w2.
Proof.
  induction w1 as [|ev w1 IH]; [done|].
  destruct ev; simpl; try done. by rewrite IH.
Qed.

Lemma terminal_app (w1 w2 : list event) :
  terminal (w1 ++ w2) = terminal w1 ++ terminal w2.
Proof. apply List.filter_app. Qed.

Lemma posts_app (w1 w2 : list event) : posts (w1 ++ w2) = posts w1 ++ posts w2.
Proof. apply List.filter_app. Qed.

Lemma get_status_run (e : env) (l : list string) :
  ∃ r, get_status e l = (r, l ++ ["client getting status"], [HttpGet API_URL]).
Proof.
  unfold get_status. unfold_py. simpl.
  destruct (api_get e) as [|code body]; [by eexists|].
  destruct (code =? 200); simpl; [|by eexists].
  destruct body as [j|]; simpl; [|by eexists].
  unfold dict_get.
  destruct j; simpl; try by eexists.
  match goal with |- context [default ?d ?o] => destruct (default d o) end;
    simpl; by eexists.
Qed.

Lemma api_request_run (cfg : config) (reqtype : string)
    (statcolor : option string) (e : env) (l : list string) :
  ∃ w, api_request cfg reqtype statcolor e l =
         (Ok (accepted cfg e),
          l ++ ["client sent " +:+ reqtype +:+ " request"], w) ∧
       status_posts w = [(reqtype, default (table_color reqtype) statcolor)] ∧
       terminal w = [] ∧ drawn w = [].
Proof.
  pose proof (api_request_value cfg reqtype statcolor e l) as Hv.
  pose proof (api_request_status_posts cfg reqtype statcolor e l) as Hp.
  destruct (api_request cfg reqtype statcolor e l) as [[r l1] w] eqn:Hrun.
  unfold value, calls in Hv, Hp. simpl in Hv, Hp. subst r. exists w.
  revert Hrun. unfold api_request. unfold_py. simpl.
  destruct (api_post e) as [|code body]; [by intros [= _ <- <-]|].
  destruct (code =? 200); simpl; [|by intros [= _ <- <-]].
  destruct (WEBHOOK_URL cfg) as [url|]; [|by intros [= _ <- <-]].
  destruct (truthy_str url); [|by intros [= _ <- <-]]. simpl.
  destruct (webhook_post e) as [|c b]; [by intros [= _ <- <-]|].
  case_bool_decide; simpl; by intros [= _ <- <-].
Qed.

Lemma Qltb_false (a b : Q) : Qltb a b = false ↔ ¬ (a < b)%Q.
Proof.
  unfold Qltb. rewrite negb_false_iff, Qle_bool_iff. split.
  - intros Hle Hlt. by apply Qle_not_lt in Hle.
  - apply Qnot_lt_le.
Qed.

Lemma truncate_log_run (e : env) (l : list string) :
  truncate_log e l =
    if log_openable e then (Ok true, [], [])
    else (Ok false, l, [Print "Error truncating log file"]).
Proof.
  unfold truncate_log, open_w_plus, readlines. unfold_py.
  by destruct (log_openable e).
Qed.

Arguments get_status : simpl never.
Arguments truncate_log : simpl never.
Arguments api_request : simpl never.

Ltac submit cfg Hacc :=
  let w := fresh "w" in
  let Hw := fresh "Hw" in
  let Hp := fresh "Hp" in
  let Ht := fresh "Ht" in
  let Hd := fresh "Hd" in
  match goal with
  | |- context [api_request cfg ?reqtype ?statcolor ?e ?l] =>
      destruct (api_request_run cfg reqtype statcolor e l)
        as (w & Hw & Hp & Ht & Hd);
      rewrite Hw; simpl; rewrite ?Hacc; simpl;
      unfold terminal in Ht
  end.

Ltac observe Ht Hd :=
  unfold terminal, posts; simpl;
  rewrite ?drawn_app, ?List.filter_app, ?status_posts_app, ?Ht, ?Hd; simpl.

Lemma set_status_closed (cfg : config) (ch : Z) (success : bool) (gotchar : Q)
    (e : env) (l : list string) (v : json) :
  value (get_status e l) = Ok v → eq_str v "open" = false →
  log_openable e = true → Qltb (clock e - gotchar) (1 # 10) = false →
  ∃ w, set_status cfg ch success gotchar e l =
         (Ok (if accepted cfg e then Some BANNER_OPEN else None),
          ["client sent open request"]
            ++ (if accepted cfg e then [] else ["open request failed"]),
          HttpGet API_URL :: w
            ++ (if accepted cfg e then [] else [Flash; Beep])) ∧
       status_posts w = [("open", "brightgreen")] ∧
       terminal w = [] ∧ drawn w = [].
Proof.
  intros Hv Hclosed Hlog Hdeb.
  destruct (get_status_run e l) as [r Hr].
  rewrite Hr in Hv. unfold value in Hv. simpl in Hv. subst r.
  destruct (api_request_run cfg "open" None e []) as (w & Hw & Hp & Ht & Hd).
  exists w. split; [|done].
  unfold set_status, get_state, report. unfold_py.
  rewrite Hr, Hclosed. simpl. rewrite truncate_log_run, Hlog. simpl.
  rewrite Hdeb, !andb_false_r. simpl. rewrite Hw. simpl.
  by destruct (accepted cfg e); simpl; rewrite ?app_nil_r.
Qed.

Lemma iteration_key (cfg : config) (ch : Z) (success : bool) (gotchar : Q)
    (e : env) (l : list string) :
  ch ≠ -1 →
  iteration cfg ch success gotchar e l =
    bind (set_status cfg ch success gotchar)
      (fun banner =>
         match banner with
         | Some b => if truthy_banner b then ncurses_write b else ret tt
         | None => ret tt
         end) e l.
Proof.
  intros Hkey. unfold iteration.
  by destruct (Z.eqb_spec ch (-1)).
Qed.

Lemma ncurses_write_run (b : banner) (e : env) (l : list string) :
  ∃ l', ncurses_write b e l = (Ok tt, l', [Clear; AddStrBold b]).
Proof.
  unfold ncurses_write, win_addstr_bold. unfold_py. simpl.
  destruct (addstr_error e); simpl; by eexists.
Qed.

Lemma eq_str_other (v : json) (s : string) : v ≠ JStr s → eq_str v s = false.
Proof.
  intros Hne. destruct v; simpl; try done.
  case_bool_decide; congruence.
Qed.

Lemma set_status_rejected (cfg : config) (ch : Z) (success : bool)
    (gotchar : Q) (e : env) (l : list string) :
  accepted cfg e = false →
  ∃ r l' w, set_status cfg ch success gotchar e l = (r, l', w) ∧
    ((status_posts w = [] ∧ posts w = []) ∨
     (r = Ok None ∧ drawn w = [] ∧
      ∃ pre, terminal w = pre ++ [Flash; Beep] ∧
             (pre = [] ∨ ch = ord "|" ∧ pre = prompt))).
Proof.
  intros Hacc.
  destruct (get_status_run e l) as [r Hr].
  unfold set_status, get_state, report, win_getstr. unfold_py.
  rewrite Hr.
  destruct r as [v|x]; [|by eexists _, _, _; split; [reflexivity|left]].
  destruct (eq_str v "open"); simpl; rewrite truncate_log_run;
    (destruct (log_openable e); simpl;
     [|by eexists _, _, _; split; [reflexivity|left]]);
    (destruct (Qltb (clock e - gotchar) (1 # 10)); simpl;
     [by eexists _, _, _; split; [reflexivity|left]|]).
  - rewrite !andb_true_r.
    destruct (Z.eqb_spec ch (ord "f")) as [->|Hf]; simpl.
    { submit cfg Hacc. eexists _, _, _; split; [reflexivity|right].
      split_and!; [done|by observe Ht Hd|exists []; by observe Ht Hd; auto]. }
    destruct (Z.eqb_spec ch (ord "c")) as [->|Hc]; simpl.
    { submit cfg Hacc. eexists _, _, _; split; [reflexivity|right].
      split_and!; [done|by observe Ht Hd|exists []; by observe Ht Hd; auto]. }
    destruct (Z.eqb_spec ch (ord "|")) as [->|Hb]; simpl.
    { destruct (decode (take 6 (typed_color e))) as [statcolor|]; simpl;
        [|by eexists _, _, _; split; [reflexivity|left]].
      destruct (decode (take 6 (typed_status e))) as [reqtype|]; simpl;
        [|by eexists _, _, _; split; [reflexivity|left]].
      destruct (negb (truthy_str reqtype) || negb (truthy_str statcolor)); simpl;
        [by eexists _, _, _; split; [reflexivity|left]|].
      submit cfg Hacc. eexists _, _, _; split; [reflexivity|right].
      split_and!; [done|by observe Ht Hd|].
      exists prompt. observe Ht Hd. auto. }
    submit cfg Hacc. eexists _, _, _; split; [reflexivity|right].
    split_and!; [done|by observe Ht Hd|exists []; by observe Ht Hd; auto].
  - rewrite !andb_false_r. simpl.
    submit cfg Hacc. eexists _, _, _; split; [reflexivity|right].
    split_and!; [done|by observe Ht Hd|exists []; by observe Ht Hd; auto].
Qed.

(** ** Log truncation *)

(** C1: a log file of one line, under the ceiling of 1024 lines, is
    empty after the truncation check: the check opens the file in mode
    [w+], which empties it before its lines are counted. *)
Theorem truncate_log_empties_short_log :
  Z.of_nat (length ["client init"]) <= MAX_LOG_ENTRIES ∧
  truncate_log env0 ["client init"] = (Ok true, [], []).
Proof. split; [by vm_compute|reflexivity]. Qed.

(** ** Debounce *)

(** C2: two key presses 50 ms apart are both submitted and both redrawn:
    [main] passes [gotchar = 0] at every turn, so the 100 ms test of
    [set_status] compares the clock with the epoch. *)
Theorem second_press_within_100ms_is_submitted :
  match two_presses with
  | [(_, first); (_, second)] => (clock second - clock first < 1 # 10)%Q
  | _ => False
  end ∧
  status_posts (calls (main cfg0 two_presses []))
    = [("open", "brightgreen"); ("closed", "red")] ∧
  drawn (calls (main cfg0 two_presses [])) = [BANNER_OPEN; BANNER_CLOSE].
Proof. by vm_compute. Qed.

(** ** Status fetch *)

Lemma get_status_sentinel (e : env) (l : list string) :
  (api_get e = TransportError → value (get_status e l) = Ok (JStr "error")) ∧
  (∀ code body, api_get e = Response code body → code ≠ 200 →
     value (get_status e l) = Ok (JStr "error")) ∧
  (∀ label, api_get e = Response 200 (status_body label) →
     value (get_status e l) = Ok (JStr label)).
Proof.
  unfold get_status. unfold_py. simpl. split_and!.
  - by intros ->.
  - intros code body -> Hne. by destruct (Z.eqb_spec code 200).
  - by intros label ->.
Qed.

(** C3: on a 200 response whose body is the empty object, [get_status]
    raises: the default of the first [get] is a string, which has no
    [get]. *)
Theorem get_status_raises_on_missing_data :
  value (get_status env_no_data []) = Raise (AttributeError "str" "get").
Proof. reflexivity. Qed.

(** ** Keys in the closed state *)

Lemma closed_submits_open (cfg : config) (ch : Z) (success : bool)
    (gotchar : Q) (e : env) (l : list string) (v : json) :
  value (get_status e l) = Ok v → v ≠ JStr "open" →
  log_openable e = true → ¬ (clock e - gotchar < 1 # 10)%Q →
  status_posts (calls (set_status cfg ch success gotchar e l))
    = [("open", "brightgreen")].
Proof.
  intros Hv Hne Hlog Hdeb.
  destruct (set_status_closed cfg ch success gotchar e l v)
    as (w & Hrun & Hp & _); [done|by apply eq_str_other|done| |].
  { by apply Qltb_false. }
  rewrite Hrun. unfold calls. simpl.
  rewrite status_posts_app, Hp. by destruct (accepted cfg e).
Qed.

(** C7: when the status fetched at the start of the action is closed, a
    key other than [f], [c] and [|] submits the label open (provided
    the log check passed and the action is not debounced), and when the
    submission succeeds the open banner is drawn. *)
Theorem closed_other_key_submits_open (cfg : config) (ch : Z)
    (success : bool) (gotchar : Q) (e : env) (l : list string) :
  ch ≠ -1 → ch ≠ ord "f" → ch ≠ ord "c" → ch ≠ ord "|" →
  value (get_status e l) = Ok (JStr "closed") →
  log_openable e = true →
  ¬ (clock e - gotchar < 1 # 10)%Q →
  status_posts (calls (iteration cfg ch success gotchar e l))
    = [("open", "brightgreen")] ∧
  (accepted cfg e = true →
   value (set_status cfg ch success gotchar e l) = Ok (Some BANNER_OPEN) ∧
   drawn (calls (iteration cfg ch success gotchar e l)) = [BANNER_OPEN]).
Proof.
  intros Hkey _ _ _ Hv Hlog Hdeb.
  destruct (set_status_closed cfg ch success gotchar e l (JStr "closed"))
    as (w & Hrun & Hp & Ht & Hd); [done|done|done| |].
  { by apply Qltb_false. }
  rewrite iteration_key by done. unfold bind. rewrite Hrun.
  destruct (accepted cfg e); simpl.
  - match goal with |- context [ncurses_write ?b e ?l'] =>
      destruct (ncurses_write_run b e l') as [l2 ->] end.
    unfold calls, value. simpl.
    rewrite !status_posts_app, !drawn_app, Hp, Hd. done.
  - unfold calls. simpl. rewrite !status_posts_app, Hp. done.
Qed.

Lemma closed_other_key_submits_open_witness :
  status_posts (calls (iteration cfg0 (ord "a") true 0 env0 []))
    = [("open", "brightgreen")] ∧
  (accepted cfg0 env0 = true →
   value (set_status cfg0 (ord "a") true 0 env0 []) = Ok (Some BANNER_OPEN) ∧
   drawn (calls (iteration cfg0 (ord "a") true 0 env0 [])) = [BANNER_OPEN]).
Proof.
  apply (closed_other_key_submits_open cfg0 (ord "a") true 0%Q env0 []);
    try (vm_compute; congruence); reflexivity.
Defined.

(** C9: when the status fetched at the start of the action is closed,
    every key, [f], [c] and [|] included, submits the label open
    (provided the log check passed and the action is not debounced). *)
Theorem closed_every_key_submits_open (cfg : config) (ch : Z)
    (success : bool) (gotchar : Q) (e : env) (l : list string) :
  value (get_status e l) = Ok (JStr "closed") →
  log_openable e = true →
  ¬ (clock e - gotchar < 1 # 10)%Q →
  status_posts (calls (set_status cfg ch success gotchar e l))
    = [("open", "brightgreen")].
Proof.
  intros Hv Hlog Hdeb.
  by apply (closed_submits_open cfg ch success gotchar e l (JStr "closed")).
Qed.

Lemma closed_every_key_submits_open_witness :
  status_posts (calls (set_status cfg0 (ord "f") true 0 env0 []))
    = [("open", "brightgreen")].
Proof.
  apply (closed_every_key_submits_open cfg0 (ord "f") true 0%Q env0 []);
    try (vm_compute; congruence); reflexivity.
Defined.

(** C10: [get_state] maps every fetched status other than open to the
    closed state; a transport failure yields the status error, hence the
    closed state, and a key pressed then submits the label open
    (provided the log check passed and the action is not debounced). *)
Theorem unreachable_api_submits_open (cfg : config) (ch : Z)
    (success : bool) (gotchar : Q) (e : env) (l : list string) :
  (∀ v, value (get_status e l) = Ok v → v ≠ JStr "open" →
        value (get_state e l) = Ok STATE_CLOSED) ∧
  (api_get e = TransportError →
   value (get_status e l) = Ok (JStr "error") ∧
   value (get_state e l) = Ok STATE_CLOSED ∧
   (log_openable e = true → ¬ (clock e - gotchar < 1 # 10)%Q →
    status_posts (calls (set_status cfg ch success gotchar e l))
      = [("open", "brightgreen")])).
Proof.
  assert (∀ v, value (get_status e l) = Ok v → v ≠ JStr "open" →
               value (get_state e l) = Ok STATE_CLOSED) as Hstate.
  { intros v Hv Hne. destruct (get_status_run e l) as [r Hr].
    rewrite Hr in Hv. unfold value in Hv. simpl in Hv. subst r.
    unfold get_state. unfold_py. rewrite Hr. simpl.
    by rewrite eq_str_other. }
  split; [done|]. intros Hget.
  assert (value (get_status e l) = Ok (JStr "error")) as Hv.
  { unfold get_status. unfold_py. simpl. by rewrite Hget. }
  split_and!; [done|by apply (Hstate (JStr "error"))|].
  intros Hlog Hdeb.
  by apply (closed_submits_open cfg ch success gotchar e l (JStr "error")).
Qed.

Lemma unreachable_api_submits_open_witness :
  status_posts (calls (set_status cfg0 (ord "a") true 0 env_unreachable []))
    = [("open", "brightgreen")].
Proof.
  destruct (unreachable_api_submits_open cfg0 (ord "a") true 0%Q
              env_unreachable []) as [_ Hdown].
  destruct Hdown as (_ & _ & Hsubmit); [reflexivity|].
  apply Hsubmit; [reflexivity|]. vm_compute. congruence.
Defined.

(** ** Freeform entry *)

Lemma decode_nil_inv (s : string) : decode [] = Some s → s = "".
Proof. by intros [= <-]. Qed.

(** C8: in the open state, the key [|] submits nothing and yields no
    banner when the label or the color typed is empty or is not
    well-formed UTF-8. *)
Theorem freeform_abort (cfg : config) (success : bool) (gotchar : Q)
    (e : env) (l : list string) :
  value (get_status e l) = Ok (JStr "open") →
  typed_status e = [] ∨ typed_color e = [] ∨
  decode (take 6 (typed_status e)) = None ∨
  decode (take 6 (typed_color e)) = None →
  value (set_status cfg (ord "|") success gotchar e l) = Ok None ∧
  posts (calls (set_status cfg (ord "|") success gotchar e l)) = [] ∧
  drawn (calls (iteration cfg (ord "|") success gotchar e l)) = [].
Proof.
  intros Hv Hbad.
  destruct (get_status_run e l) as [r Hr].
  rewrite Hr in Hv. unfold value in Hv. simpl in Hv. subst r.
  rewrite iteration_key by done.
  unfold set_status, get_state, report, win_getstr. unfold_py.
  rewrite Hr. simpl. rewrite truncate_log_run.
  destruct (log_openable e); simpl; [|done].
  destruct (Qltb (clock e - gotchar) (1 # 10)); simpl; [done|].
  destruct (decode (take 6 (typed_color e))) as [statcolor|] eqn:Hc;
    simpl; [|done].
  destruct (decode (take 6 (typed_status e))) as [reqtype|] eqn:Hs;
    simpl; [|done].
  assert (negb (truthy_str reqtype) || negb (truthy_str statcolor) = true)
    as ->; [|done].
  destruct Hbad as [Hbad|[Hbad|[Hbad|Hbad]]]; try congruence.
  - rewrite Hbad in Hs. apply decode_nil_inv in Hs. by subst.
  - rewrite Hbad in Hc. apply decode_nil_inv in Hc. subst.
    apply orb_true_r.
Qed.

Lemma freeform_abort_witness :
  value (set_status cfg0 (ord "|") true 0 env_bad_label []) = Ok None ∧
  posts (calls (set_status cfg0 (ord "|") true 0 env_bad_label [])) = [] ∧
  drawn (calls (iteration cfg0 (ord "|") true 0 env_bad_label [])) = [].
Proof.
  apply (freeform_abort cfg0 true 0%Q env_bad_label []); [reflexivity|].
  right. right. left. reflexivity.
Defined.

(** ** Failure signals *)

(** The claim C6 fails at an unreachable status API: the passive refresh
    draws the banner of the text [Lab is ERROR]. *)
Lemma error_banner_is_drawn :
  value (get_status env_unreachable []) = Ok (JStr "error") ∧
  drawn (calls (iteration cfg0 (-1) true 0 env_unreachable []))
    = [renderText "Lab is ERROR"] ∧
  forallb (fun b => negb (shows_text "ERROR" b))
    (drawn (calls (iteration cfg0 (-1) true 0 env_unreachable []))) = false.
Proof. by vm_compute. Qed.

(** C6, amended: when a submission is made and fails, the action yields
    no banner and draws none, and what it sends to the terminal ends
    with a flash and a beep, preceded by nothing or, for the key [|], by
    the freeform prompt; on a passive refresh, the fetched status error
    is drawn as the banner of the text [Lab is ERROR]. *)
Theorem failure_signal (cfg : config) (ch : Z) (success : bool)
    (gotchar : Q) (e : env) (l : list string) :
  (ch ≠ -1 →
   status_posts (calls (set_status cfg ch success gotchar e l)) ≠ [] →
   accepted cfg e = false →
   value (set_status cfg ch success gotchar e l) = Ok None ∧
   drawn (calls (iteration cfg ch success gotchar e l)) = [] ∧
   ∃ pre, terminal (calls (iteration cfg ch success gotchar e l))
            = pre ++ [Flash; Beep] ∧
          (pre = [] ∨ ch = ord "|" ∧ pre = prompt)) ∧
  (value (get_status e l) = Ok (JStr "error") →
   drawn (calls (iteration cfg (-1) success gotchar e l))
     = [renderText "Lab is ERROR"]).
Proof.
  split.
  - intros Hkey Hsub Hacc. rewrite iteration_key by done.
    destruct (set_status_rejected cfg ch success gotchar e l Hacc)
      as (r & l' & w & Hrun & [[Hnone _]|(-> & Hd & pre & Ht & Hpre)]).
    { rewrite Hrun in Hsub. done. }
    unfold bind. rewrite Hrun. unfold value, calls. simpl.
    rewrite app_nil_r. split_and!; [done|done|by exists pre].
  - intros Hv. destruct (get_status_run e l) as [r Hr].
    rewrite Hr in Hv. unfold value in Hv. simpl in Hv. subst r.
    unfold iteration, get_remote_status. unfold_py. simpl.
    rewrite Hr. simpl.
    match goal with |- context [ncurses_write ?b e ?l'] =>
      destruct (ncurses_write_run b e l') as [l2 ->] end.
    done.
Qed.

Lemma failure_signal_witness :
  value (set_status cfg0 (ord "a") true 0 env_rejected []) = Ok None ∧
  drawn (calls (iteration cfg0 (ord "a") true 0 env_rejected [])) = [] ∧
  ∃ pre, terminal (calls (iteration cfg0 (ord "a") true 0 env_rejected []))
           = pre ++ [Flash; Beep] ∧
         (pre = [] ∨ ord "a" = ord "|" ∧ pre = prompt).
Proof.
  destruct (failure_signal cfg0 (ord "a") true 0%Q env_rejected [])
    as [Hfail _].
  apply Hfail; [by vm_compute|by vm_compute|reflexivity].
Defined.

(** ** Calls of a submission *)

Lemma webhook_posts_app (w1 w2 : list event) :
  webhook_posts (w1 ++ w2) = webhook_posts w1 ++ webhook_posts w2.
Proof.
  induction w1 as [|ev w1 IH]; [done|].
  destruct ev as [| url [a|] payload | | | | | | | | | | | | | |];
    simpl; try done.
  destruct payload as [|[k1 v1] [|p2 rest]]; simpl; try done.
  by rewrite IH.
Qed.

Lemma WEBHOOK_MESSAGES_other (reqtype : string) :
  reqtype ∉ ["open"; "closed"; "fire"; "coffee"] →
  WEBHOOK_MESSAGES !! reqtype = None.
Proof.
  intros Hother. unfold WEBHOOK_MESSAGES. simpl.
  rewrite !lookup_insert_ne; [apply lookup_empty|..];
    intros <-; apply Hother; set_solver.
Qed.

Lemma api_request_webhook_posts (cfg : config) (reqtype : string)
    (statcolor : option string) (e : env) (l : list string)
    (body : option json) (url : string) :
  api_post e = Response 200 body → WEBHOOK_URL cfg = Some url → url ≠ "" →
  webhook_posts (calls (api_request cfg reqtype statcolor e l)) =
    [(url, default ("Lab is " +:+ reqtype) (WEBHOOK_MESSAGES !! reqtype))].
Proof.
  intros Hpost Hurl Hne. unfold api_request. unfold_py. simpl.
  rewrite Hpost, Hurl. simpl. unfold truthy_str.
  rewrite bool_decide_eq_false_2 by done. simpl.
  destruct (webhook_post e) as [|c b]; [done|].
  by case_bool_decide.
Qed.

(** X1: when the status POST answers 200 and a webhook URL is set,
    [api_request] notifies that URL once, with the fixed message of the
    labels open, closed, fire and coffee, and with [Lab is <label>] for
    every other label. *)
Theorem api_request_webhook_message (cfg : config)
    (statcolor : option string) (e : env) (l : list string)
    (body : option json) (url : string) :
  api_post e = Response 200 body → WEBHOOK_URL cfg = Some url → url ≠ "" →
  webhook_posts (calls (api_request cfg "open" statcolor e l))
    = [(url, "Lab is OPEN :)")] ∧
  webhook_posts (calls (api_request cfg "closed" statcolor e l))
    = [(url, "Lab is CLOSED :(")] ∧
  webhook_posts (calls (api_request cfg "fire" statcolor e l))
    = [(url, "Lab is ON FIRE 🔥")] ∧
  webhook_posts (calls (api_request cfg "coffee" statcolor e l))
    = [(url, "Out for coffee ☕")] ∧
  (∀ reqtype : string,
     reqtype ∉ ["open"; "closed"; "fire"; "coffee"] →
     webhook_posts (calls (api_request cfg reqtype statcolor e l))
       = [(url, "Lab is " +:+ reqtype)]).
Proof.
  intros Hpost Hurl Hne.
  split_and!;
    try (by rewrite (api_request_webhook_posts _ _ _ _ _ body url)).
  intros reqtype Hother.
  rewrite (api_request_webhook_posts _ _ _ _ _ body url) by done.
  by rewrite WEBHOOK_MESSAGES_other.
Qed.

Lemma api_request_webhook_message_witness :
  webhook_posts
    (calls (api_request
              {| API_USER := None; API_PASS := None;
                 WEBHOOK_URL := Some "https://chat.example/hook" |}
              "party" None env0 []))
    = [("https://chat.example/hook", "Lab is party")].
Proof.
  destruct (api_request_webhook_message
              {| API_USER := None; API_PASS := None;
                 WEBHOOK_URL := Some "https://chat.example/hook" |}
              None env0 [] None "https://chat.example/hook")
    as (_ & _ & _ & _ & Hother); [reflexivity|reflexivity|done|].
  apply Hother. apply (bool_decide_unpack _). vm_compute. exact I.
Defined.



(** ** Keys in the open state *)

Lemma set_status_open (cfg : config) (ch : Z) (success : bool) (gotchar : Q)
    (e : env) (l : list string) (reqtype color : string) (b : banner) :
  value (get_status e l) = Ok (JStr "open") →
  log_openable e = true → ¬ (clock e - gotchar < 1 # 10)%Q →
  (ch = ord "f" ∧ reqtype = "fire" ∧ color = "orange" ∧ b = BANNER_FIRE) ∨
  (ch = ord "c" ∧ reqtype = "coffee" ∧ color = "8f7369" ∧ b = BANNER_COFFEE) ∨
  (ch ≠ ord "f" ∧ ch ≠ ord "c" ∧ ch ≠ ord "|" ∧
   reqtype = "closed" ∧ color = "red" ∧ b = BANNER_CLOSE) →
  ∃ w, set_status cfg ch success gotchar e l =
         (Ok (if accepted cfg e then Some b else None),
          ["client sent " +:+ reqtype +:+ " request"]
            ++ (if accepted cfg e then [] else [reqtype +:+ " request failed"]),
          HttpGet API_URL :: w
            ++ (if accepted cfg e then [] else [Flash; Beep])) ∧
       status_posts w = [(reqtype, color)] ∧
       terminal w = [] ∧ drawn w = [].
Proof.
  intros Hv Hlog Hdeb Hkey. apply Qltb_false in Hdeb.
  destruct (get_status_run e l) as [r Hr].
  rewrite Hr in Hv. unfold value in Hv. simpl in Hv. subst r.
  destruct (api_request_run cfg reqtype None e []) as (w & Hw & Hp & Ht & Hd).
  exists w.
  unfold set_status, get_state, report. unfold_py.
  rewrite Hr. simpl. rewrite truncate_log_run, Hlog. simpl.
  rewrite Hdeb, !andb_true_r.
  destruct Hkey as [(-> & -> & -> & ->)|[(-> & -> & -> & ->)|
    (Hf & Hc & Hb & -> & -> & ->)]]; simpl.
  - rewrite Hw. simpl. split; [|done].
    by destruct (accepted cfg e); simpl; rewrite ?app_nil_r.
  - rewrite Hw. simpl. split; [|done].
    by destruct (accepted cfg e); simpl; rewrite ?app_nil_r.
  - destruct (Z.eqb_spec ch (ord "f")); [done|].
    destruct (Z.eqb_spec ch (ord "c")); [done|].
    destruct (Z.eqb_spec ch (ord "|")); [done|]. simpl.
    rewrite Hw. simpl. split; [|done].
    by destruct (accepted cfg e); simpl; rewrite ?app_nil_r.
Qed.

Lemma iteration_draws (cfg : config) (ch : Z) (success : bool) (gotchar : Q)
    (e : env) (l l1 : list string) (w : list event) (o : option banner) :
  ch ≠ -1 →
  set_status cfg ch success gotchar e l = (Ok o, l1, w) →
  (∀ b, o = Some b → truthy_banner b = true) →
  value (iteration cfg ch success gotchar e l) = Ok tt ∧
  status_posts (calls (iteration cfg ch success gotchar e l))
    = status_posts w ∧
  drawn (calls (iteration cfg ch success gotchar e l))
    = drawn w ++ match o with Some b => [b] | None => [] end.
Proof.
  intros Hkey Hrun Htruthy. rewrite iteration_key by done.
  unfold bind. rewrite Hrun. destruct o as [b|]; simpl.
  - rewrite (Htruthy b) by done.
    destruct (ncurses_write_run b e l1) as [l2 ->].
    unfold value, calls. simpl.
    by rewrite status_posts_app, drawn_app, app_nil_r.
  - unfold value, calls. simpl. by rewrite !app_nil_r.
Qed.

(** X3: in the open state the key [f] submits the label fire with the
    color orange, and the key [c] the label coffee with the color
    8f7369 (provided the log check passed and the action is not
    debounced); on success the fire banner, resp. the coffee banner, is
    drawn, and on failure nothing is drawn. *)
Theorem open_fire_and_coffee (cfg : config) (success : bool) (gotchar : Q)
    (e : env) (l : list string) :
  value (get_status e l) = Ok (JStr "open") →
  log_openable e = true → ¬ (clock e - gotchar < 1 # 10)%Q →
  status_posts (calls (iteration cfg (ord "f") success gotchar e l))
    = [("fire", "orange")] ∧
  drawn (calls (iteration cfg (ord "f") success gotchar e l))
    = (if accepted cfg e then [BANNER_FIRE] else []) ∧
  status_posts (calls (iteration cfg (ord "c") success gotchar e l))
    = [("coffee", "8f7369")] ∧
  drawn (calls (iteration cfg (ord "c") success gotchar e l))
    = (if accepted cfg e then [BANNER_COFFEE] else []).
Proof.
  intros Hv Hlog Hdeb.
  destruct (set_status_open cfg (ord "f") success gotchar e l
              "fire" "orange" BANNER_FIRE) as (w1 & Hr1 & Hp1 & _ & Hd1);
    [done|done|done|by left|].
  destruct (set_status_open cfg (ord "c") success gotchar e l
              "coffee" "8f7369" BANNER_COFFEE) as (w2 & Hr2 & Hp2 & _ & Hd2);
    [done|done|done|by right; left|].
  destruct (iteration_draws cfg (ord "f") success gotchar e l _ _ _
              ltac:(done) Hr1) as (_ & -> & ->).
  { destruct (accepted cfg e); [by intros ? [= <-]|done]. }
  destruct (iteration_draws cfg (ord "c") success gotchar e l _ _ _
              ltac:(done) Hr2) as (_ & -> & ->).
  { destruct (accepted cfg e); [by intros ? [= <-]|done]. }
  simpl. rewrite !status_posts_app, !drawn_app, Hp1, Hp2, Hd1, Hd2.
  by destruct (accepted cfg e).
Qed.

Lemma open_fire_and_coffee_witness :
  status_posts (calls (iteration cfg0 (ord "f") true 0 env_rejected []))
    = [("fire", "orange")] ∧
  drawn (calls (iteration cfg0 (ord "f") true 0 env_rejected []))
    = (if accepted cfg0 env_rejected then [BANNER_FIRE] else []) ∧
  status_posts (calls (iteration cfg0 (ord "c") true 0 env_rejected []))
    = [("coffee", "8f7369")] ∧
  drawn (calls (iteration cfg0 (ord "c") true 0 env_rejected []))
    = (if accepted cfg0 env_rejected then [BANNER_COFFEE] else []).
Proof.
  apply (open_fire_and_coffee cfg0 true 0%Q env_rejected []);
    try reflexivity. vm_compute. congruence.
Defined.

(** X4: in the open state every key other than [f], [c] and [|] submits
    the label closed with the color red (provided the log check passed
    and the action is not debounced); on success the closed banner is
    drawn, and on failure nothing is drawn. *)
Theorem open_other_key_submits_closed (cfg : config) (ch : Z)
    (success : bool) (gotchar : Q) (e : env) (l : list string) :
  ch ≠ -1 → ch ≠ ord "f" → ch ≠ ord "c" → ch ≠ ord "|" →
  value (get_status e l) = Ok (JStr "open") →
  log_openable e = true → ¬ (clock e - gotchar < 1 # 10)%Q →
  status_posts (calls (iteration cfg ch success gotchar e l))
    = [("closed", "red")] ∧
  drawn (calls (iteration cfg ch success gotchar e l))
    = (if accepted cfg e then [BANNER_CLOSE] else []).
Proof.
  intros Hkey Hf Hc Hb Hv Hlog Hdeb.
  destruct (set_status_open cfg ch success gotchar e l
              "closed" "red" BANNER_CLOSE) as (w & Hr & Hp & _ & Hd);
    [done|done|done|by right; right|].
  destruct (iteration_draws cfg ch success gotchar e l _ _ _ Hkey Hr)
    as (_ & -> & ->).
  { destruct (accepted cfg e); [by intros ? [= <-]|done]. }
  simpl. rewrite !status_posts_app, !drawn_app, Hp, Hd.
  by destruct (accepted cfg e).
Qed.

Lemma open_other_key_submits_closed_witness :
  status_posts (calls (iteration cfg0 (ord " ") true 0 env_rejected []))
    = [("closed", "red")] ∧
  drawn (calls (iteration cfg0 (ord " ") true 0 env_rejected []))
    = (if accepted cfg0 env_rejected then [BANNER_CLOSE] else []).
Proof.
  apply (open_other_key_submits_closed cfg0 (ord " ") true 0%Q
           env_rejected []); try (vm_compute; congruence); reflexivity.
Defined.

(** ** Generated banners *)

Lemma lstrip_chars_snoc (cs : list ascii) (c : ascii) :
  is_space c = false → lstrip_chars (cs ++ [c]) ≠ [].
Proof.
  intros Hc. induction cs as [|a cs IH]; simpl.
  - by rewrite Hc.
  - by destruct (is_space a).
Qed.

Lemma strip_Lab_is (x : string) : truthy_str (strip ("Lab is " +:+ x)) = true.
Proof.
  unfold truthy_str, strip. simpl.
  rewrite bool_decide_eq_false_2; [done|].
  match goal with |- context [rev (lstrip_chars (?a ++ [?c]))] =>
    pose proof (lstrip_chars_snoc a c eq_refl) as Hne;
    destruct (lstrip_chars (a ++ [c])) as [|c0 rest] eqn:Heq; [done|]
  end.
  simpl. destruct (rev rest) as [|c1 rest1]; simpl; done.
Qed.

Lemma generated_banner_truthy (x : string) :
  truthy_banner (renderText (strip ("Lab is " +:+ x))) = true.
Proof. unfold truthy_banner, renderText. simpl. by rewrite strip_Lab_is. Qed.



(** ** Freeform entry that submits *)




(** ** Guards of an action *)





Lemma api_request_single_get (cfg : config) (reqtype : string)
    (statcolor : option string) (e : env) (l : list string) :
  gets (calls (api_request cfg reqtype statcolor e l)) = [].
Proof.
  unfold api_request. unfold_py. simpl.
  destruct (api_post e) as [|code body]; [done|].
  destruct (code =? 200); simpl; [|done].
  destruct (WEBHOOK_URL cfg) as [url|]; [|done].
  destruct (truthy_str url); [|done]. simpl.
  destruct (webhook_post e) as [|c b]; [done|].
  by case_bool_decide.
Qed.

(** ** Shape of every action *)

Ltac submit_any cfg :=
  let w := fresh "w" in
  let Hw := fresh "Hw" in
  let Hp := fresh "Hp" in
  let Ht := fresh "Ht" in
  let Hd := fresh "Hd" in
  let Hget := fresh "Hget" in
  match goal with
  | |- context [api_request cfg ?reqtype ?statcolor ?e ?l] =>
      pose proof (api_request_single_get cfg reqtype statcolor e l) as Hget;
      destruct (api_request_run cfg reqtype statcolor e l)
        as (w & Hw & Hp & Ht & Hd);
      rewrite Hw in Hget |- *; unfold calls, gets in Hget; simpl in Hget;
      simpl; destruct (accepted cfg e); simpl
  end.

Ltac action_shape :=
  eexists _, _, _; split; [reflexivity|];
  split_and!;
  [ unfold gets; simpl; rewrite ?List.filter_app; simpl;
    repeat match goal with H : List.filter is_get _ = [] |- _ =>
      rewrite H end; done
  | simpl; rewrite ?drawn_app; simpl;
    repeat match goal with H : drawn _ = [] |- _ => rewrite H end; done
  | simpl; rewrite ?status_posts_app; simpl;
    repeat match goal with H : status_posts _ = _ |- _ => rewrite H end;
    simpl; lia
  | right; eexists _, _; split_and!;
    [ reflexivity | reflexivity
    | try done; intros ? [= <-];
      first [reflexivity | apply generated_banner_truthy]
    | try done; intros _; simpl; lia ] ].

Lemma set_status_cases (cfg : config) (ch : Z) (success : bool)
    (gotchar : Q) (e : env) (l : list string) :
  ∃ r l' w, set_status cfg ch success gotchar e l
              = (r, l', HttpGet API_URL :: w) ∧
    gets w = [] ∧ drawn w = [] ∧ (length (status_posts w) <= 1)%nat ∧
    ((∃ x, value (get_status e l) = Raise x ∧ r = Raise x ∧ w = []) ∨
     (∃ v o, value (get_status e l) = Ok v ∧ r = Ok o ∧
             (∀ b, o = Some b → truthy_banner b = true) ∧
             (log_openable e = true → (length l' <= 2)%nat))).
Proof.
  destruct (get_status_run e l) as [r Hr].
  unfold set_status, get_state, report, win_getstr. unfold_py.
  rewrite Hr. unfold value. simpl.
  destruct r as [v|x];
    [|eexists _, _, _; split; [reflexivity|]; split_and!;
      [done|done|simpl; lia|left; eauto]].
  destruct (eq_str v "open"); simpl; rewrite truncate_log_run;
    (destruct (log_openable e); simpl; [|action_shape]);
    (destruct (Qltb (clock e - gotchar) (1 # 10)); simpl; [action_shape|]).
  - rewrite !andb_true_r.
    destruct (ch =? ord "f"); simpl; [submit_any cfg; action_shape|].
    destruct (ch =? ord "c"); simpl; [submit_any cfg; action_shape|].
    destruct (ch =? ord "|"); simpl; [|submit_any cfg; action_shape].
    destruct (decode (take 6 (typed_color e))) as [statcolor|]; simpl;
      [|action_shape].
    destruct (decode (take 6 (typed_status e))) as [reqtype|]; simpl;
      [|action_shape].
    destruct (negb (truthy_str reqtype) || negb (truthy_str statcolor));
      simpl; [action_shape|].
    submit_any cfg; action_shape.
  - rewrite !andb_false_r. simpl. submit_any cfg; action_shape.
Qed.

(** X8: every key press makes exactly one status GET, before anything
    else, and at most one status POST. *)
Theorem action_fetches_once_posts_at_most_once (cfg : config) (ch : Z)
    (success : bool) (gotchar : Q) (e : env) (l : list string) :
  head (calls (set_status cfg ch success gotchar e l))
    = Some (HttpGet API_URL) ∧
  gets (calls (set_status cfg ch success gotchar e l)) = [HttpGet API_URL] ∧
  (length (status_posts (calls (set_status cfg ch success gotchar e l)))
     <= 1)%nat.
Proof.
  destruct (set_status_cases cfg ch success gotchar e l)
    as (r & l' & w & -> & Hg & _ & Hp & _).
  unfold calls, gets in *. simpl. by rewrite Hg.
Qed.



(** X10: the loop draws exactly the banner a key press returned, once,
    and draws nothing when it returned none or raised: a returned banner
    is never empty, and [set_status] itself draws no banner. *)
Theorem loop_draws_returned_banner (cfg : config) (ch : Z)
    (success : bool) (gotchar : Q) (e : env) (l : list string) :
  ch ≠ -1 →
  drawn (calls (iteration cfg ch success gotchar e l)) =
    match value (set_status cfg ch success gotchar e l) with
    | Ok (Some b) => [b]
    | _ => []
    end.
Proof.
  intros Hkey.
  destruct (set_status_cases cfg ch success gotchar e l)
    as (r & l' & w & Hrun & _ & Hd & _ &
        [(x & _ & -> & ->)|(v & o & _ & -> & Htruthy & _)]).
  - rewrite iteration_key by done. unfold bind. by rewrite Hrun.
  - destruct (iteration_draws cfg ch success gotchar e l _ _ _ Hkey Hrun
                Htruthy) as (_ & _ & ->).
    rewrite Hrun. unfold value. simpl. rewrite Hd. by destruct o.
Qed.

Lemma loop_draws_returned_banner_witness :
  drawn (calls (iteration cfg0 (ord "a") true 0 env0 [])) =
    match value (set_status cfg0 (ord "a") true 0 env0 []) with
    | Ok (Some b) => [b]
    | _ => []
    end.
Proof.
  apply (loop_draws_returned_banner cfg0 (ord "a") true 0%Q env0 []).
  vm_compute. congruence.
Defined.

(** ** Passive refresh *)



(** X12: when no key arrives and the fetch returns a string, the loop
    makes the GET and no POST, draws exactly one banner and does not
    raise, whatever the terminal answers to the drawing. *)
Theorem refresh_draws_one_banner (cfg : config) (success : bool)
    (gotchar : Q) (e : env) (l : list string) (status : string) :
  value (get_status e l) = Ok (JStr status) →
  value (iteration cfg (-1) success gotchar e l) = Ok tt ∧
  gets (calls (iteration cfg (-1) success gotchar e l)) = [HttpGet API_URL] ∧
  posts (calls (iteration cfg (-1) success gotchar e l)) = [] ∧
  ∃ b, value (get_remote_status e l) = Ok b ∧
       drawn (calls (iteration cfg (-1) success gotchar e l)) = [b].
Proof.
  intros Hv. destruct (get_status_run e l) as [r Hr].
  rewrite Hr in Hv. unfold value in Hv. simpl in Hv. subst r.
  unfold iteration, get_remote_status. unfold_py. simpl. rewrite Hr.
  unfold eq_str.
  repeat case_bool_decide; simpl;
    rewrite ?strip_Lab_is; simpl;
    match goal with |- context [ncurses_write ?b e ?l'] =>
      destruct (ncurses_write_run b e l') as [l2 ->] end;
    split_and!; try done; by eexists.
Qed.

Lemma refresh_draws_one_banner_witness :
  posts (calls (iteration cfg0 (-1) true 0 env_unreachable [])) = [].
Proof.
  eapply (refresh_draws_one_banner cfg0 true 0%Q env_unreachable [] "error").
  reflexivity.
Defined.

(** ** Drawing *)

(** X13: [ncurses_write] never raises: it clears the window and writes
    the banner, and when the terminal refuses the text it appends one
    warning with the terminal's message to the log; otherwise the log is
    left as it was. *)
Theorem ncurses_write_never_raises (b : banner) (e : env) (l : list string) :
  value (ncurses_write b e l) = Ok tt ∧
  calls (ncurses_write b e l) = [Clear; AddStrBold b] ∧
  log_after (ncurses_write b e l) =
    match addstr_error e with
    | Some msg => l ++ ["NCurses exception: " +:+ msg]
    | None => l
    end.
Proof.
  unfold ncurses_write, win_addstr_bold. unfold_py. simpl.
  by destruct (addstr_error e).
Qed.

(** ** Status fetch, all cases *)

Lemma get_status_value_log (e : env) (l l' : list string) :
  value (get_status e l) = value (get_status e l').
Proof.
  unfold get_status. unfold_py. simpl.
  destruct (api_get e) as [|code body]; [done|].
  destruct (code =? 200); simpl; [|done].
  destruct body as [j|]; simpl; [|done].
  unfold dict_get.
  destruct j; simpl; try done.
  match goal with |- context [default ?d ?o] => destruct (default d o) end;
    simpl; done.
Qed.


(** X15: on a 200 answer whose body holds an object under the key data,
    [get_status] returns the value found under the key status, of any
    JSON type, and the sentinel error when that key is missing. *)
Theorem get_status_reads_status (e : env) (l : list string)
    (items data : list (string * json)) :
  api_get e = Response 200 (Some (JObj items)) →
  assoc "data" items = Some (JObj data) →
  (assoc "status" data = None → value (get_status e l) = Ok (JStr "error")) ∧
  (∀ v, assoc "status" data = Some v → value (get_status e l) = Ok v).
Proof.
  intros Hget Hdata. unfold get_status, dict_get. unfold_py. simpl.
  rewrite Hget. simpl. rewrite Hdata. simpl.
  split; [by intros ->|by intros v ->].
Qed.

Lemma get_status_reads_status_witness :
  value (get_status
           (world (Response 200
                     (Some (JObj [("data", JObj [("status", JNum 5)])])))
              (Response 200 None) (1700000000 # 1) [] []) [])
    = Ok (JNum 5).
Proof.
  destruct (get_status_reads_status
              (world (Response 200
                        (Some (JObj [("data", JObj [("status", JNum 5)])])))
                 (Response 200 None) (1700000000 # 1) [] []) []
              [("data", JObj [("status", JNum 5)])] [("status", JNum 5)])
    as [_ Hsome]; [reflexivity|reflexivity|].
  apply Hsome. reflexivity.
Defined.

(** ** The loop *)

Lemma main_loop_app (cfg : config) (before after : list (Z * env))
    (success : bool) (gotchar : Q) (l : list string) :
  main_loop cfg (before ++ after) success gotchar l =
    match main_loop cfg before success gotchar l with
    | (Ok _, l1, w1) =>
        match main_loop cfg after success gotchar l1 with
        | (r, l2, w2) => (r, l2, w1 ++ w2)
        end
    | (Raise x, l1, w1) => (Raise x, l1, w1)
    end.
Proof.
  revert l. induction before as [|[ch e] before IH]; intros l; simpl.
  - by destruct (main_loop cfg after success gotchar l) as [[r l2] w2].
  - destruct (iteration cfg ch success gotchar e l) as [[[[]|x] l1] w1];
      [|done].
    rewrite IH.
    destruct (main_loop cfg before success gotchar l1) as [[[[]|x] l2] w2];
      [|done].
    destruct (main_loop cfg after success gotchar l2) as [[r l3] w3].
    by rewrite app_assoc.
Qed.

Lemma iteration_raises (cfg : config) (ch : Z) (success : bool) (gotchar : Q)
    (e : env) (l : list string) (x : exn) :
  value (get_status e l) = Raise x →
  iteration cfg ch success gotchar e l =
    (Raise x, l ++ ["client getting status"], [HttpGet API_URL]).
Proof.
  intros Hv. destruct (get_status_run e l) as [r Hr].
  rewrite Hr in Hv. unfold value in Hv. simpl in Hv. subst r.
  unfold iteration, get_remote_status, set_status, get_state. unfold_py.
  destruct (ch =? -1); simpl; by rewrite Hr.
Qed.

(** X16: a turn of the loop whose status fetch raises, on a key or on a
    timeout, ends [main] with that exception right after the GET: the
    keys that follow are never read. *)
Theorem fetch_exception_ends_main (cfg : config)
    (before after : list (Z * env)) (ch : Z) (e : env)
    (l l0 : list string) (x : exn) :
  value (get_status e l0) = Raise x →
  value (main cfg before l) = Ok tt →
  value (main cfg (before ++ (ch, e) :: after) l) = Raise x ∧
  calls (main cfg (before ++ (ch, e) :: after) l)
    = calls (main cfg before l) ++ [HttpGet API_URL].
Proof.
  intros Hv Hbefore. unfold main in *.
  rewrite main_loop_app.
  destruct (main_loop cfg before true 0%Q (l ++ ["client init"]))
    as [[[[]|y] l1] w1]; [|done].
  simpl.
  rewrite (iteration_raises cfg ch true 0%Q e l1 x)
    by (by rewrite (get_status_value_log e l1 l0)).
  unfold value, calls. simpl. done.
Qed.

Lemma fetch_exception_ends_main_witness :
  value (main cfg0 ([(ord "a", env0)] ++ (-1, env_no_data) :: [(ord "a", env0)])
           []) = Raise (AttributeError "str" "get").
Proof.
  eapply (fetch_exception_ends_main cfg0 [(ord "a", env0)] [(ord "a", env0)]
            (-1) env_no_data [] []); reflexivity.
Defined.



(** ** Start of the program *)

